(** * PortHandlerCAN: the transparent CAN-tunnel transport of the Dynamixel SDK

    A shallow embedding of [python/src/dynamixel_sdk/port_handler_can.py].
    The class [PortHandlerCAN] extends the SDK's [PortHandler]; its methods
    mutate [self], print to standard output, call into pyserial and may
    raise.  They are embedded as computations of a small state-and-exception
    monad over the object and the outside world. *)

From Stdlib Require Import ZArith List String Ascii Bool Lia.
From Stdlib Require Import Strings.Byte.
From Stdlib Require DecimalString.
From Stdlib Require Import Floats.PrimFloat Floats.SpecFloat Floats.FloatOps.
Import ListNotations.

Open Scope string_scope.
Open Scope Z_scope.

(** ** Python values used by the source *)

(** The exception classes that can travel through the methods. *)
Inductive exn : Type :=
| SerialException (msg : string)   (* serial.SerialException *)
| ValueError (msg : string)        (* bytearray() on an int outside range(256), bad pyserial parameter *)
| ZeroDivisionError                (* 1000.0 / 0 *)
| OverflowError                    (* int too large to convert to float *)
| PortNotOpen.                     (* read or write on a closed transport *)

Inductive outcome (A : Type) : Type :=
| Ret (a : A)
| Raise (e : exn).
Arguments Ret {A} a.
Arguments Raise {A} e.

(** [str(n)] and [format(n, 'X')] for a Python int. *)
Definition str_int (n : Z) : string :=
  DecimalString.NilZero.string_of_int (Z.to_int n).

Fixpoint upper_hex (d : Hexadecimal.uint) : string :=
  match d with
  | Hexadecimal.Nil => ""
  | Hexadecimal.D0 d => String "0" (upper_hex d)
  | Hexadecimal.D1 d => String "1" (upper_hex d)
  | Hexadecimal.D2 d => String "2" (upper_hex d)
  | Hexadecimal.D3 d => String "3" (upper_hex d)
  | Hexadecimal.D4 d => String "4" (upper_hex d)
  | Hexadecimal.D5 d => String "5" (upper_hex d)
  | Hexadecimal.D6 d => String "6" (upper_hex d)
  | Hexadecimal.D7 d => String "7" (upper_hex d)
  | Hexadecimal.D8 d => String "8" (upper_hex d)
  | Hexadecimal.D9 d => String "9" (upper_hex d)
  | Hexadecimal.Da d => String "A" (upper_hex d)
  | Hexadecimal.Db d => String "B" (upper_hex d)
  | Hexadecimal.Dc d => String "C" (upper_hex d)
  | Hexadecimal.Dd d => String "D" (upper_hex d)
  | Hexadecimal.De d => String "E" (upper_hex d)
  | Hexadecimal.Df d => String "F" (upper_hex d)
  end.

(** [f'{n:X}'] *)
Definition format_X (n : Z) : string :=
  match Z.to_hex_int n with
  | Hexadecimal.Pos d => upper_hex d
  | Hexadecimal.Neg d => "-" ++ upper_hex d
  end.

(** Left padding with zeros up to [width] characters (the [0] flag of a
    format specification, for a value that carries no sign). *)
Fixpoint zeros (k : nat) : string :=
  match k with
  | O => ""
  | S k => String "0" (zeros k)
  end.

Definition zero_pad (width : nat) (s : string) : string :=
  zeros (width - String.length s) ++ s.

(** The value of an element of a [bytes] or [bytearray] object. *)
Definition int_of_byte (b : byte) : Z := Z.of_N (Byte.to_N b).

(** [f'{b:02X}'] for an element [b] of a byte string. *)
Definition format_02X (b : byte) : string :=
  zero_pad 2 (format_X (int_of_byte b)).

(** [' '.join([f'{b:02X}' for b in data])] *)
Definition hex_dump (data : list byte) : string :=
  String.concat " " (map format_02X data).

(** [bytearray(xs)] for a list of ints: every element must be in
    [range(0, 256)]. *)
Definition byte_of_int (x : Z) : option byte :=
  if (0 <=? x) && (x <? 256) then Byte.of_N (Z.to_N x) else None.

Fixpoint bytearray (xs : list Z) : outcome (list byte) :=
  match xs with
  | [] => Ret []
  | x :: xs =>
      match byte_of_int x with
      | None => Raise (ValueError "byte must be in range(0, 256)")
      | Some b =>
          match bytearray xs with
          | Ret bs => Ret (b :: bs)
          | Raise e => Raise e
          end
      end
  end.

(** The argument of [writePort]: "bytes or list". *)
Inductive packet : Type :=
| PyBytes (data : list byte)
| PyList (xs : list Z).

(** Conversion of a Python int to a float: round to nearest, ties to even. *)
Definition int_to_float (n : Z) : float :=
  SF2Prim (binary_normalize prec emax n 0 false).

(** [x / n] for a float [x] and an int [n]. *)
Definition truediv (x : float) (n : Z) : outcome float :=
  let y := int_to_float n in
  if is_infinity y then Raise OverflowError
  else if n =? 0 then Raise ZeroDivisionError
  else Ret (x / y)%float.

(** ** pyserial, as far as the source uses it *)

Module serial.

Inductive ByteSize := FIVEBITS | SIXBITS | SEVENBITS | EIGHTBITS.
Inductive Parity :=
  PARITY_NONE | PARITY_EVEN | PARITY_ODD | PARITY_MARK | PARITY_SPACE.
Inductive StopBits := STOPBITS_ONE | STOPBITS_ONE_POINT_FIVE | STOPBITS_TWO.

(** The settings of a [serial.Serial] object. [timeout = Some 0] is the
    non-blocking mode, [None] would block. *)
Record Serial : Type := {
  port : string;
  baudrate : Z;
  bytesize : ByteSize;
  parity : Parity;
  stopbits : StopBits;
  timeout : option Z
}.

End serial.

(** Calls made on the underlying channel, in the order they happen. *)
Inductive io_event : Type :=
| Serial_call (cfg : serial.Serial)   (* serial.Serial(...): claim the channel *)
| reset_input_buffer_call             (* ser.reset_input_buffer() *)
| close_call                          (* the channel is released *)
| read_call (length : Z)              (* a non-blocking read of up to length bytes *)
| write_call (data : list byte).      (* a non-blocking write *)

(** How the channel answers, given the calls made so far. [None] from
    [claim] or [flush] means the call returned normally. *)
Record Medium : Type := {
  claim : serial.Serial -> list io_event -> option exn;
  flush : list io_event -> option exn;
  recv : Z -> list io_event -> list byte;
  send : list byte -> list io_event -> Z
}.

(** What lies outside the object: the lines printed so far and the calls
    made on the channel so far, oldest first. *)
Record World : Type := {
  stdout : list string;
  io : list io_event
}.

(** ** The monad of methods *)

Definition M (S A : Type) : Type := S * World -> outcome A * (S * World).

Definition ret {S A} (a : A) : M S A := fun st => (Ret a, st).

Definition raise {S A} (e : exn) : M S A := fun st => (Raise e, st).

Definition bind {S A B} (m : M S A) (k : A -> M S B) : M S B :=
  fun st =>
    match m st with
    | (Ret a, st') => k a st'
    | (Raise e, st') => (Raise e, st')
    end.

Declare Scope py_scope.
Delimit Scope py_scope with py.
Notation "x <- m ;; k" := (bind m (fun x => k))
  (at level 61, m at next level, right associativity) : py_scope.
Notation "m ;; k" := (bind m (fun _ => k))
  (at level 61, right associativity) : py_scope.
Open Scope py_scope.

Definition get_self {S} : M S S := fun st => (Ret (fst st), st).

Definition update {S} (f : S -> S) : M S unit :=
  fun st => (Ret tt, (f (fst st), snd st)).

Definition history {S} : M S (list io_event) :=
  fun st => (Ret (io (snd st)), st).

(** [print(line)] *)
Definition print {S} (line : string) : M S unit :=
  fun st =>
    (Ret tt, (fst st, {| stdout := stdout (snd st) ++ [line]; io := io (snd st) |})).

Definition emit {S} (ev : io_event) : M S unit :=
  fun st =>
    (Ret tt, (fst st, {| stdout := stdout (snd st); io := io (snd st) ++ [ev] |})).

Definition lift_outcome {S A} (o : outcome A) : M S A := fun st => (o, st).

(** [try: body  except serial.SerialException as e: handler e] *)
Definition try_except_SerialException {S A}
    (body : M S A) (handler : string -> M S A) : M S A :=
  fun st =>
    match body st with
    | (Raise (SerialException msg), st') => handler msg st'
    | r => r
    end.

(** [if c: m] without an else branch. *)
Definition when {S} (c : bool) (m : M S unit) : M S unit :=
  if c then m else ret tt.

(** ** The base transport, [PortHandler] *)

Module PortHandler.

(** The attributes of a [PortHandler] that the subclass reads and
    writes: [self.is_open], [self.baudrate], [self.tx_time_per_byte],
    [self.port_name] and [self.ser]. *)
Record t : Type := {
  is_open : bool;
  baudrate : Z;
  tx_time_per_byte : float;
  port_name : string;
  ser : option serial.Serial
}.

Definition set_is_open (v : bool) (self : t) : t :=
  {| is_open := v; baudrate := baudrate self;
     tx_time_per_byte := tx_time_per_byte self;
     port_name := port_name self; ser := ser self |}.

Definition set_tx_time_per_byte (v : float) (self : t) : t :=
  {| is_open := is_open self; baudrate := baudrate self;
     tx_time_per_byte := v;
     port_name := port_name self; ser := ser self |}.

Definition set_ser (v : option serial.Serial) (self : t) : t :=
  {| is_open := is_open self; baudrate := baudrate self;
     tx_time_per_byte := tx_time_per_byte self;
     port_name := port_name self; ser := v |}.

(** Modelled from the spec: the constructor of the base transport,
    [PortHandler.__init__], is not among the sources. A transport is
    constructed closed, with no channel handle; its baud rate is the
    one given and no per-byte time has been derived yet. *)
Definition __init__ (port_name : string) (baudrate : Z) : t :=
  {| is_open := false; baudrate := baudrate; tx_time_per_byte := 0%float;
     port_name := port_name; ser := None |}.

(** Modelled from the spec: [PortHandler.closePort] is not among the
    sources. "close(): releases the channel; idempotent - calling it
    when already closed is a no-op." *)
Definition closePort : M t unit :=
  self <- get_self ;;
  if is_open self
  then emit close_call ;; update (set_is_open false)
  else ret tt.

(** Modelled from the spec: [PortHandler.readPort] is not among the
    sources. "read(maxLength) -> bytes read (possibly empty):
    non-blocking"; reads are "only valid in Open" and "must fail
    explicitly" while closed, performing "no underlying I/O". *)
Definition readPort (dev : Medium) (length : Z) : M t (list byte) :=
  self <- get_self ;;
  if is_open self
  then h <- history ;; emit (read_call length) ;; ret (recv dev length h)
  else raise PortNotOpen.

(** Modelled from the spec: [PortHandler.writePort] is not among the
    sources. "write(bytes) -> count written: non-blocking"; writes are
    "only valid in Open" and "must fail explicitly" while closed,
    performing "no underlying I/O". *)
Definition writePort (dev : Medium) (data : list byte) : M t Z :=
  self <- get_self ;;
  if is_open self
  then h <- history ;; emit (write_call data) ;; ret (send dev data h)
  else raise PortNotOpen.

End PortHandler.

(** ** [class PortHandlerCAN(PortHandler)] *)

Definition LATENCY_TIMER : Z := 16.
Definition DEFAULT_BAUDRATE : Z := 1000000.
Definition DEFAULT_CAN_ID : Z := 0x60.
Definition CAN_MAX_DATA_SIZE : Z := 8.
Definition CAN_EXTENDED_ID : Z := 0x80000000.

Record PortHandlerCAN : Type := {
  base : PortHandler.t;          (* the attributes inherited from PortHandler *)
  can_id : Z;
  extended_id : bool;
  can_baudrate : Z;
  _recv_buffer : list byte;
  debug : bool
}.

Definition set_base (v : PortHandler.t) (self : PortHandlerCAN) : PortHandlerCAN :=
  {| base := v; can_id := can_id self; extended_id := extended_id self;
     can_baudrate := can_baudrate self; _recv_buffer := _recv_buffer self;
     debug := debug self |}.

Definition set_debug (v : bool) (self : PortHandlerCAN) : PortHandlerCAN :=
  {| base := base self; can_id := can_id self; extended_id := extended_id self;
     can_baudrate := can_baudrate self; _recv_buffer := _recv_buffer self;
     debug := v |}.

(** [super(PortHandlerCAN, self).m(...)], an inherited method called on
    [self], and an assignment to an inherited attribute: the computation
    runs on the inherited part of the object. *)
Definition super {A} (m : M PortHandler.t A) : M PortHandlerCAN A :=
  fun st =>
    match m (base (fst st), snd st) with
    | (r, (b, w)) => (r, (set_base b (fst st), w))
    end.

(** [__init__(self, port_name, can_id, extended_id, can_baudrate)];
    [serial_baudrate] is the baud rate the base constructor leaves in
    [self.baudrate]. *)
Definition __init__ (port_name : string) (serial_baudrate : Z)
    (can_id : Z) (extended_id : bool) (can_baudrate : Z) : PortHandlerCAN :=
  {| base := PortHandler.__init__ port_name serial_baudrate;
     can_id := can_id;
     extended_id := extended_id;
     can_baudrate := can_baudrate;
     _recv_buffer := [];
     debug := false |}.

Section Methods.

(** The channel the transport talks to, and [sys.version_info[0]]. *)
Variable dev : Medium.
Variable version_major : Z.

(** [serial.Serial(port=..., baudrate=..., ...)] *)
Definition Serial {S} (cfg : serial.Serial) : M S serial.Serial :=
  h <- history ;;
  emit (Serial_call cfg) ;;
  match claim dev cfg h with
  | Some e => raise e
  | None => ret cfg
  end.

(** [self.ser.reset_input_buffer()] *)
Definition reset_input_buffer {S} : M S unit :=
  h <- history ;;
  emit reset_input_buffer_call ;;
  match flush dev h with
  | Some e => raise e
  | None => ret tt
  end.

Definition writePort (packet : packet) : M PortHandlerCAN Z :=
  data <- lift_outcome
            match packet with
            | PyList xs => bytearray xs
            | PyBytes data => Ret data
            end ;;
  self <- get_self ;;
  when (debug self)
    (print ("[DEBUG] Writing packet: " ++ hex_dump data)) ;;
  super (PortHandler.writePort dev data).

Definition readPort (length : Z) : M PortHandlerCAN (list byte) :=
  data <- super (PortHandler.readPort dev length) ;;
  self <- get_self ;;
  when (debug self && negb (Nat.eqb (List.length data) 0))
    (if 3 <=? version_major
     then print ("[DEBUG] Read data: " ++ hex_dump data)
     else print ("[DEBUG] Read data: " ++ hex_dump data)) ;;
  ret data.

Definition setupPort (cflag_baud : Z) : M PortHandlerCAN bool :=
  self <- get_self ;;
  when (PortHandler.is_open (base self)) (super PortHandler.closePort) ;;
  try_except_SerialException
    (self <- get_self ;;
     s <- Serial {| serial.port := PortHandler.port_name (base self);
                    serial.baudrate := PortHandler.baudrate (base self);
                    serial.bytesize := serial.EIGHTBITS;
                    serial.parity := serial.PARITY_NONE;
                    serial.stopbits := serial.STOPBITS_ONE;
                    serial.timeout := Some 0 |} ;;
     super (update (PortHandler.set_ser (Some s))) ;;
     super (update (PortHandler.set_is_open true)) ;;
     reset_input_buffer ;;
     self <- get_self ;;
     q <- lift_outcome (truediv 1000 (PortHandler.baudrate (base self))) ;;
     super (update (PortHandler.set_tx_time_per_byte (q * 10))) ;;
     self <- get_self ;;
     when (debug self)
       (print "[DEBUG] Port Configuration:" ;;
        print ("  - Serial Port: " ++ PortHandler.port_name (base self)) ;;
        print ("  - Serial Baudrate: " ++ str_int (PortHandler.baudrate (base self))) ;;
        print ("  - CAN ID: 0x" ++ format_X (can_id self)
               ++ (if extended_id self then " (Extended)" else " (Standard)")) ;;
        print ("  - CAN Baudrate: " ++ str_int (can_baudrate self)) ;;
        print "Note: Make sure the WS-TTL-CAN converter is configured with these settings") ;;
     ret true)
    (fun e =>
       print ("Error opening port: " ++ e) ;;
       ret false).

Definition setDebug (enable : bool) : M PortHandlerCAN unit :=
  update (set_debug enable).

Definition printCANConfInstructions : M PortHandlerCAN unit :=
  self <- get_self ;;
  print "=== WS-TTL-CAN Configuration Instructions ===" ;;
  print "1. Download and open WS-CAN-TOOL software from Waveshare's website" ;;
  print "2. Connect the WS-TTL-CAN converter to your computer via USB-to-TTL converter" ;;
  print "3. Configure the following settings:" ;;
  print "   - Set 'Working Mode' to 'Transparent Conversion'" ;;
  print ("   - Set 'CAN Baudrate' to " ++ str_int (can_baudrate self) ++ " bps") ;;
  print ("   - Set 'Serial Baudrate' to " ++ str_int (PortHandler.baudrate (base self)) ++ " bps") ;;
  print "   - Set 'Serial Data Bit' to 8" ;;
  print "   - Set 'Serial Stop Bit' to 1" ;;
  print "   - Set 'Serial Parity Bit' to None" ;;
  print ("   - Set 'CAN ID' to 0x" ++ format_X (can_id self)) ;;
  print ("   - Set 'Frame Type' to "
         ++ (if extended_id self then "Extended Frame" else "Standard Frame")) ;;
  print "4. Click 'Save Device Parameters'" ;;
  print "5. Click 'Restart Device'" ;;
  print "===========================================".

End Methods.

(** [PortHandlerForWaveshareCAN(port_name, can_id, extended_id,
    can_baudrate, debug)]: construct, then [setDebug]. *)
Definition PortHandlerForWaveshareCAN (port_name : string) (serial_baudrate : Z)
    (can_id : Z) (extended_id : bool) (can_baudrate : Z) (debug : bool)
  : PortHandlerCAN :=
  let port_handler := __init__ port_name serial_baudrate can_id extended_id can_baudrate in
  set_debug debug port_handler.

(** A caller's view of the object: one method call after another, each
    on the state the previous one left, whether it returned or raised. *)
Inductive method : Type :=
| call_writePort (p : packet)
| call_readPort (length : Z)
| call_setupPort (cflag_baud : Z)
| call_setDebug (enable : bool)
| call_printCANConfInstructions
| call_closePort.

Definition forget {A} (r : outcome A * (PortHandlerCAN * World))
  : PortHandlerCAN * World := snd r.

Definition invoke (dev : Medium) (version_major : Z) (m : method)
    (st : PortHandlerCAN * World) : PortHandlerCAN * World :=
  match m with
  | call_writePort p => forget (writePort dev p st)
  | call_readPort n => forget (readPort dev version_major n st)
  | call_setupPort c => forget (setupPort dev c st)
  | call_setDebug b => forget (setDebug b st)
  | call_printCANConfInstructions => forget (printCANConfInstructions st)
  | call_closePort => forget (super PortHandler.closePort st)
  end.

Definition invoke_all (dev : Medium) (version_major : Z) (ms : list method)
    (st : PortHandlerCAN * World) : PortHandlerCAN * World :=
  fold_left (fun st m => invoke dev version_major m st) ms st.

(** ** Vocabulary of the statements *)

(** The settings [setupPort] asks pyserial for. *)
Definition settings_8N1 (self : PortHandler.t) : serial.Serial :=
  {| serial.port := PortHandler.port_name self;
     serial.baudrate := PortHandler.baudrate self;
     serial.bytesize := serial.EIGHTBITS;
     serial.parity := serial.PARITY_NONE;
     serial.stopbits := serial.STOPBITS_ONE;
     serial.timeout := Some 0 |}.

(** The calls on the channel by the time [setupPort] claims it: an open
    transport has been closed first. *)
Definition io_before_claim (self : PortHandlerCAN) (w : World) : list io_event :=
  io w ++ (if PortHandler.is_open (base self) then [close_call] else []).

(** The six lines [setupPort] prints in debug mode. *)
Definition port_configuration_lines (self : PortHandlerCAN) : list string :=
  [ "[DEBUG] Port Configuration:";
    "  - Serial Port: " ++ PortHandler.port_name (base self);
    "  - Serial Baudrate: " ++ str_int (PortHandler.baudrate (base self));
    "  - CAN ID: 0x" ++ format_X (can_id self)
      ++ (if extended_id self then " (Extended)" else " (Standard)");
    "  - CAN Baudrate: " ++ str_int (can_baudrate self);
    "Note: Make sure the WS-TTL-CAN converter is configured with these settings" ].


(** The byte sequence a packet stands for: a byte string stands for
    itself, a list of ints for the bytes with those values. *)
Definition denotes (p : packet) (data : list byte) : Prop :=
  match p with
  | PyBytes d => d = data
  | PyList xs => xs = map int_of_byte data
  end.

(** The world after the optional trace line of [writePort]. *)
Definition write_traced (self : PortHandlerCAN) (data : list byte) (w : World) : World :=
  {| stdout := if debug self
               then stdout w ++ ["[DEBUG] Writing packet: " ++ hex_dump data]
               else stdout w;
     io := io w |}.

(** The trace as the specification words it: each byte as two uppercase
    hexadecimal digits, in order, separated by single spaces. *)
Definition upper_hex_digit (n : N) : ascii :=
  match String.get (N.to_nat n) "0123456789ABCDEF" with
  | Some c => c
  | None => "?"%char
  end.

Definition two_digit_hex (b : byte) : string :=
  let n := Byte.to_N b in
  String (upper_hex_digit (n / 16)) (String (upper_hex_digit (n mod 16)) "").

Fixpoint spaced_hex (data : list byte) : string :=
  match data with
  | [] => ""
  | [b] => two_digit_hex b
  | b :: rest => two_digit_hex b ++ " " ++ spaced_hex rest
  end.



(** Two channels for the examples: one that can always be claimed and
    echoes a fixed reply, and one that is busy. *)
Definition bench_channel : Medium :=
  {| claim := fun _ _ => None;
     flush := fun _ => None;
     recv := fun n _ => firstn (Z.to_nat n) [x55; xaa; x01]%byte;
     send := fun data _ => Z.of_nat (List.length data) |}.

Definition busy_channel : Medium :=
  {| claim := fun _ _ => Some (SerialException "could not open port");
     flush := fun _ => None;
     recv := fun _ _ => [];
     send := fun _ _ => 0 |}.

Definition quiet : World := {| stdout := []; io := [] |}.

(** The port handler of the example programs, at 57600 baud. *)
Definition example_port : PortHandlerCAN :=
  PortHandlerForWaveshareCAN "/dev/ttyUSB0" 57600 DEFAULT_CAN_ID false 1000000 false.

(** The same handler once [setupPort] has run on the bench channel. *)
Definition example_port_open : PortHandlerCAN * World :=
  snd (setupPort bench_channel 0 (example_port, quiet)).

(** A packet longer than one CAN frame. *)
Definition long_packet : list Z := [255; 255; 253; 0; 1; 7; 0; 2; 132; 0; 4; 0; 29; 21].

Definition long_packet_bytes : list byte :=
  [xff; xff; xfd; x00; x01; x07; x00; x02; x84; x00; x04; x00; x1d; x15]%byte.

(** The settings of the object that no method is meant to change: the
    port name and serial baud rate of the base transport and the CAN
    settings of the bridge. *)
Definition configuration (self : PortHandlerCAN)
  : string * Z * Z * bool * Z :=
  (PortHandler.port_name (base self), PortHandler.baudrate (base self),
   can_id self, extended_id self, can_baudrate self).

(** An int that [bytearray] accepts. *)
Definition in_byte_range (x : Z) : Prop := 0 <= x < 256.

(** Reading a trace back: the value of an uppercase hexadecimal digit, of
    a pair of digits, and of a whole dump. *)
Definition hex_digit_value (c : ascii) : option N :=
  let n := N_of_ascii c in
  if ((48 <=? n) && (n <=? 57))%N then Some (n - 48)%N
  else if ((65 <=? n) && (n <=? 70))%N then Some (n - 55)%N
  else None.

Definition parse_two_digits (hi lo : ascii) : option byte :=
  match hex_digit_value hi, hex_digit_value lo with
  | Some h, Some l => Byte.of_N (16 * h + l)
  | _, _ => None
  end.

Fixpoint parse_hex_dump (s : string) : option (list byte) :=
  match s with
  | "" => Some []
  | String hi (String lo rest) =>
      match parse_two_digits hi lo with
      | None => None
      | Some b =>
          match rest with
          | "" => Some [b]
          | String sep rest' =>
              if Ascii.eqb sep " "
              then match parse_hex_dump rest' with
                   | Some (b' :: bs) => Some (b :: b' :: bs)
                   | _ => None
                   end
              else None
          end
      end
  | String _ "" => None
  end.

(** More channels for the examples: one whose input buffer cannot be
    reset and one that rejects the settings it is asked for. *)
Definition stuck_channel : Medium :=
  {| claim := fun _ _ => None;
     flush := fun _ => Some (SerialException "could not reset input buffer");
     recv := fun _ _ => [];
     send := fun _ _ => 0 |}.

Definition strict_channel : Medium :=
  {| claim := fun _ _ => Some (ValueError "Not a valid baudrate");
     flush := fun _ => None;
     recv := fun _ _ => [];
     send := fun _ _ => 0 |}.

(** A port handler whose serial baud rate has been set to zero. *)
Definition zero_baud_port : PortHandlerCAN :=
  PortHandlerForWaveshareCAN "/dev/ttyUSB0" 0 DEFAULT_CAN_ID false 1000000 false.

Arguments truediv : simpl never.
Arguments int_to_float : simpl never.
Arguments str_int : simpl never.
Arguments format_X : simpl never.
Arguments hex_dump : simpl never.

Ltac run_methods :=
  cbv beta iota zeta delta
    [setupPort writePort readPort setDebug
     PortHandler.closePort PortHandler.readPort PortHandler.writePort
     super Serial reset_input_buffer try_except_SerialException when
     bind ret raise get_self update history print emit lift_outcome
     forget invoke];
  simpl.

(** ** Properties *)

Section Properties.

Variable dev : Medium.

(** What a [setupPort] that returns [True] has done. *)
Lemma setupPort_returns_true (cflag_baud : Z) (self self' : PortHandlerCAN)
    (w w' : World) :
  setupPort dev cflag_baud (self, w) = (Ret true, (self', w')) ->
  let cfg := settings_8N1 (base self) in
  claim dev cfg (io_before_claim self w) = None /\
  flush dev (io_before_claim self w ++ [Serial_call cfg])%list = None /\
  exists q,
    truediv 1000 (PortHandler.baudrate (base self)) = Ret q /\
    self' = set_base {| PortHandler.is_open := true;
                        PortHandler.baudrate := PortHandler.baudrate (base self);
                        PortHandler.tx_time_per_byte := (q * 10)%float;
                        PortHandler.port_name := PortHandler.port_name (base self);
                        PortHandler.ser := Some cfg |} self /\
    io w' = (io_before_claim self w ++ [Serial_call cfg; reset_input_buffer_call])%list /\
    stdout w' = (stdout w ++ (if debug self then port_configuration_lines self else []))%list.
Proof.
  unfold io_before_claim, settings_8N1, port_configuration_lines.
  run_methods.
  destruct self as [[o b t p s] ci ex cb rb dbg]; simpl.
  destruct w as [out log]; simpl.
  destruct o; simpl;
    (destruct (claim dev _ _) as [e|] eqn:Hc; simpl;
     [ destruct e; simpl; intro H; discriminate H | ]);
    (destruct (flush dev _) as [e|] eqn:Hf; simpl;
     [ destruct e; simpl; intro H; discriminate H | ]);
    (destruct (truediv 1000 b) as [q|e] eqn:Hq; simpl;
     [ | destruct e; simpl; intro H; discriminate H ]);
    destruct dbg; simpl; intro H; inversion H; subst; clear H;
    rewrite ?app_nil_r;
    (split; [auto | split; [auto | exists q]]);
    repeat rewrite <- app_assoc; simpl; repeat split; reflexivity.
Qed.

Lemma truediv_value (x q : float) (n : Z) :
  truediv x n = Ret q -> q = (x / int_to_float n)%float.
Proof.
  unfold truediv.
  destruct (is_infinity (int_to_float n)); [discriminate |].
  destruct (n =? 0); [discriminate |].
  intro H; inversion H; reflexivity.
Qed.

Lemma set_base_base (self : PortHandlerCAN) : set_base (base self) self = self.
Proof. destruct self; reflexivity. Qed.

(** C1. Once [setupPort] has returned [True] on a transport whose
    configured baud rate is r > 0, the per-byte transmit time it exposes
    is exactly (1000.0 / r) * 10.0. *)
Theorem tx_time_per_byte_formula (r cflag_baud : Z)
    (self self' : PortHandlerCAN) (w w' : World) :
  0 < r ->
  PortHandler.baudrate (base self) = r ->
  setupPort dev cflag_baud (self, w) = (Ret true, (self', w')) ->
  PortHandler.tx_time_per_byte (base self') = (1000 / int_to_float r * 10)%float.
Proof.
  intros _ Hr Hrun.
  apply setupPort_returns_true in Hrun.
  destruct Hrun as (_ & _ & q & Hq & Hself & _).
  apply truediv_value in Hq.
  subst self' q r. reflexivity.
Qed.

(** C2. On a closed transport [readPort] and [writePort] raise, whatever
    the length or the packet, they leave the object as it was and make
    no call on the channel. *)
Theorem closed_transport_rejects_io (version_major : Z)
    (self : PortHandlerCAN) (w : World) :
  PortHandler.is_open (base self) = false ->
  (forall length,
      readPort dev version_major length (self, w) = (Raise PortNotOpen, (self, w))) /\
  (forall p, exists e w',
      writePort dev p (self, w) = (Raise e, (self, w')) /\ io w' = io w).
Proof.
  intro Hclosed. split.
  - intro length. run_methods. rewrite Hclosed. simpl.
    rewrite set_base_base. destruct w; reflexivity.
  - intro p. run_methods.
    destruct (match p with PyBytes data => Ret data | PyList xs => bytearray xs end)
      as [data|e] eqn:Hp.
    + destruct (debug self); simpl; rewrite Hclosed; simpl;
        rewrite set_base_base; eexists; eexists; split; reflexivity.
    + exists e, w. destruct w; split; reflexivity.
Qed.


(** C4. [setupPort] on an open transport closes the channel first and
    then runs the whole sequence again: the channel is claimed with the
    settings of the object and, when the call returns [True], its input
    buffer has been reset, the transport is open on the new handle and
    the per-byte time is computed anew from the configured baud rate. *)
Theorem setupPort_reopens (cflag_baud : Z) (self self' : PortHandlerCAN)
    (w w' : World) (r : outcome bool) :
  PortHandler.is_open (base self) = true ->
  setupPort dev cflag_baud (self, w) = (r, (self', w')) ->
  (exists rest,
      io w' = (io w ++ close_call :: Serial_call (settings_8N1 (base self)) :: rest)%list) /\
  (r = Ret true ->
   io w' = (io w ++ [close_call; Serial_call (settings_8N1 (base self));
                     reset_input_buffer_call])%list /\
   PortHandler.is_open (base self') = true /\
   PortHandler.ser (base self') = Some (settings_8N1 (base self)) /\
   PortHandler.baudrate (base self') = PortHandler.baudrate (base self) /\
   PortHandler.tx_time_per_byte (base self')
     = (1000 / int_to_float (PortHandler.baudrate (base self)) * 10)%float).
Proof.
  intros Hopen Hrun. split.
  - revert Hrun. unfold settings_8N1.
    destruct self as [[o b t p s] ci ex cb rb dbg], w as [out log]; simpl in *.
    subst o. run_methods.
    destruct (claim dev _ _) as [e|]; simpl;
      [ destruct e; simpl; intro H; inversion H; subst; simpl;
        rewrite <- app_assoc; eexists; reflexivity | ].
    destruct (flush dev _) as [e|]; simpl;
      [ destruct e; simpl; intro H; inversion H; subst; simpl;
        repeat rewrite <- app_assoc; eexists; reflexivity | ].
    destruct (truediv 1000 b) as [q|e]; simpl;
      [ | destruct e; simpl; intro H; inversion H; subst; simpl;
          repeat rewrite <- app_assoc; eexists; reflexivity ].
    destruct dbg; simpl; intro H; inversion H; subst; simpl;
      repeat rewrite <- app_assoc; eexists; reflexivity.
  - intro Hr. subst r.
    apply setupPort_returns_true in Hrun.
    destruct Hrun as (_ & _ & q & Hq & Hself & Hio & _).
    apply truediv_value in Hq.
    unfold io_before_claim in Hio. rewrite Hopen, <- app_assoc in Hio.
    subst self' q. simpl. repeat split; try reflexivity. exact Hio.
Qed.

Lemma byte_of_int_of_byte (b : byte) : byte_of_int (int_of_byte b) = Some b.
Proof. destruct b; reflexivity. Qed.

Lemma bytearray_of_bytes (data : list byte) :
  bytearray (map int_of_byte data) = Ret data.
Proof.
  induction data as [|b data IH]; simpl.
  - reflexivity.
  - rewrite byte_of_int_of_byte, IH. reflexivity.
Qed.

Lemma writePort_unfolded (p : packet) (data : list byte)
    (self : PortHandlerCAN) (w : World) :
  denotes p data ->
  writePort dev p (self, w)
    = super (PortHandler.writePort dev data) (self, write_traced self data w).
Proof.
  intro Hp. unfold write_traced.
  assert (Hnorm : match p with PyBytes d => Ret d | PyList xs => bytearray xs end
                  = Ret data).
  { destruct p as [d|xs]; simpl in Hp; subst.
    - reflexivity.
    - apply bytearray_of_bytes. }
  run_methods. rewrite Hnorm.
  destruct w as [out log]. destruct (debug self); reflexivity.
Qed.

(** C5. [writePort] hands the whole packet, as bytes, to the base
    transport's write in one call and returns what that call returns; a
    byte string is passed as it is and a list of ints as the bytes with
    those values. On an open transport this is one write of all the
    bytes on the channel, however many there are. *)
Theorem writePort_forwards_whole_packet (p : packet) (data : list byte)
    (self : PortHandlerCAN) (w : World) :
  denotes p data ->
  writePort dev p (self, w)
    = super (PortHandler.writePort dev data) (self, write_traced self data w) /\
  (PortHandler.is_open (base self) = true ->
   writePort dev p (self, w)
     = (Ret (send dev data (io w)),
        (self, {| stdout := stdout (write_traced self data w);
                  io := io w ++ [write_call data] |}))).
Proof.
  intro Hp. split.
  - apply writePort_unfolded, Hp.
  - intro Hopen. rewrite (writePort_unfolded p data self w Hp).
    run_methods. rewrite Hopen. simpl. rewrite set_base_base. reflexivity.
Qed.


Lemma format_02X_two_digits (b : byte) : format_02X b = two_digit_hex b.
Proof. destruct b; reflexivity. Qed.

Lemma hex_dump_spaced (data : list byte) : hex_dump data = spaced_hex data.
Proof.
  unfold hex_dump.
  induction data as [|b [|b' rest] IH].
  - reflexivity.
  - apply format_02X_two_digits.
  - change (format_02X b ++ " " ++ String.concat " " (map format_02X (b' :: rest))
            = two_digit_hex b ++ " " ++ spaced_hex (b' :: rest))%string.
    rewrite IH, format_02X_two_digits. reflexivity.
Qed.

(** C7. With diagnostics on, [writePort] prints one line: the label
    "[DEBUG] Writing packet: " followed by the bytes of the packet as
    two uppercase hexadecimal digits each, in order, separated by single
    spaces, which for 01 02 FF is "01 02 FF". A [readPort] on an open
    transport prints such a line, labelled "[DEBUG] Read data: ", when
    the bytes read are not empty and prints nothing when they are. *)
Theorem diagnostic_trace (version_major : Z) (p : packet) (data : list byte)
    (length : Z) (self : PortHandlerCAN) (w : World) :
  debug self = true ->
  denotes p data ->
  stdout (snd (snd (writePort dev p (self, w))))
    = (stdout w ++ [("[DEBUG] Writing packet: " ++ spaced_hex data)%string])%list /\
  spaced_hex [x01; x02; xff]%byte = "01 02 FF" /\
  (PortHandler.is_open (base self) = true ->
   forall reply, reply = recv dev length (io w) ->
   readPort dev version_major length (self, w)
     = (Ret reply,
        (self, {| stdout := match reply with
                            | [] => stdout w
                            | _ :: _ =>
                                (stdout w ++
                                 [("[DEBUG] Read data: " ++ spaced_hex reply)%string])%list
                            end;
                  io := (io w ++ [read_call length])%list |}))).
Proof.
  intros Hdebug Hp. split; [| split].
  - rewrite (writePort_unfolded p data self w Hp).
    unfold write_traced. rewrite Hdebug, hex_dump_spaced.
    run_methods. destruct (PortHandler.is_open (base self)); reflexivity.
  - reflexivity.
  - intros Hopen reply Hreply. run_methods.
    rewrite Hopen. simpl. rewrite <- Hreply, Hdebug, set_base_base.
    destruct reply as [|b reply]; simpl.
    + reflexivity.
    + rewrite hex_dump_spaced. destruct (3 <=? version_major); reflexivity.
Qed.

(** C8. A [setupPort] that returns [True] has claimed the channel with
    8 data bits, no parity, 1 stop bit and a read timeout of zero, on the
    port and at the baud rate of the object, and has then reset the
    input buffer; the argument of the call has no part in it. *)
Theorem setupPort_fixed_framing (cflag_baud : Z) (self self' : PortHandlerCAN)
    (w w' : World) :
  setupPort dev cflag_baud (self, w) = (Ret true, (self', w')) ->
  (exists cfg,
      PortHandler.ser (base self') = Some cfg /\
      serial.bytesize cfg = serial.EIGHTBITS /\
      serial.parity cfg = serial.PARITY_NONE /\
      serial.stopbits cfg = serial.STOPBITS_ONE /\
      serial.timeout cfg = Some 0 /\
      serial.port cfg = PortHandler.port_name (base self) /\
      serial.baudrate cfg = PortHandler.baudrate (base self) /\
      io w' = (io_before_claim self w ++ [Serial_call cfg; reset_input_buffer_call])%list) /\
  (forall other_cflag,
      setupPort dev other_cflag (self, w) = setupPort dev cflag_baud (self, w)).
Proof.
  intro Hrun. split.
  - apply setupPort_returns_true in Hrun.
    destruct Hrun as (_ & _ & q & _ & Hself & Hio & _).
    exists (settings_8N1 (base self)). subst self'. simpl.
    repeat split; try reflexivity. exact Hio.
  - intro other. reflexivity.
Qed.


Lemma printCANConfInstructions_keeps_self (self : PortHandlerCAN) (w : World) :
  fst (snd (printCANConfInstructions (self, w))) = self.
Proof.
  cbv beta iota zeta delta [printCANConfInstructions bind get_self print fst snd].
  reflexivity.
Qed.

Lemma invoke_keeps_recv_buffer (version_major : Z) (m : method)
    (st : PortHandlerCAN * World) :
  _recv_buffer (fst (invoke dev version_major m st)) = _recv_buffer (fst st).
Proof.
  destruct st as [[[o b t p s] ci ex cb rb dbg] [out log]].
  destruct m as [pk|length|c|enable| |];
    [ | | | | unfold invoke, forget;
            rewrite printCANConfInstructions_keeps_self; reflexivity | ];
    run_methods.
  - destruct (match pk with PyBytes data => Ret data | PyList xs => bytearray xs end);
      simpl; [| reflexivity].
    destruct dbg, o; reflexivity.
  - destruct o; simpl; [| reflexivity].
    destruct dbg; simpl; [| reflexivity].
    destruct (recv dev length log); simpl; [reflexivity |].
    destruct (3 <=? version_major); reflexivity.
  - destruct o; simpl;
      (destruct (claim dev _ _) as [e|]; simpl;
       [ destruct e; reflexivity | ]);
      (destruct (flush dev _) as [e|]; simpl;
       [ destruct e; reflexivity | ]);
      (destruct (truediv 1000 b) as [q|e]; simpl;
       [ | destruct e; reflexivity ]);
      destruct dbg; reflexivity.
  - reflexivity.
  - destruct o; reflexivity.
Qed.

Lemma invoke_all_keeps_recv_buffer (version_major : Z) (ms : list method)
    (st : PortHandlerCAN * World) :
  _recv_buffer (fst (invoke_all dev version_major ms st)) = _recv_buffer (fst st).
Proof.
  revert st. induction ms as [|m ms IH]; intro st; simpl.
  - reflexivity.
  - unfold invoke_all in *; simpl. rewrite IH.
    apply invoke_keeps_recv_buffer.
Qed.

(** C10. The receive buffer is empty in a newly constructed port handler
    and no method touches it: it is still empty after any sequence of
    calls of [writePort], [readPort], [setupPort], [setDebug],
    [printCANConfInstructions] and [closePort], whether they return or
    raise. What [readPort] returns is what the base transport's read
    returned. *)
Theorem recv_buffer_never_used (version_major : Z) (ms : list method)
    (port_name : string) (serial_baudrate can_id can_baudrate : Z)
    (extended enable : bool) (w : World) (length : Z)
    (self : PortHandlerCAN) :
  _recv_buffer (__init__ port_name serial_baudrate can_id extended can_baudrate) = [] /\
  _recv_buffer
    (fst (invoke_all dev version_major ms
            (PortHandlerForWaveshareCAN port_name serial_baudrate can_id
               extended can_baudrate enable, w))) = [] /\
  (forall m, _recv_buffer (fst (invoke dev version_major m (self, w)))
             = _recv_buffer self) /\
  fst (readPort dev version_major length (self, w))
    = fst (PortHandler.readPort dev length (base self, w)).
Proof.
  split; [reflexivity |]. split; [| split].
  - rewrite invoke_all_keeps_recv_buffer. reflexivity.
  - intro m. apply (invoke_keeps_recv_buffer version_major m (self, w)).
  - run_methods. destruct (PortHandler.is_open (base self)); simpl; [| reflexivity].
    destruct (debug self && _)%bool; simpl; [| reflexivity].
    destruct (3 <=? version_major); reflexivity.
Qed.

End Properties.

(** ** The statements at concrete inputs *)

(** The per-byte times of the standard baud rates of the specification,
    as binary64 values: 1.0416666666666667, 0.1736111111111111 and 0.01
    in Python's shortest decimal notation. *)
Example tx_time_per_byte_standard_rates :
  (1000 / int_to_float 9600 * 10 = 0x1.0aaaaaaaaaaabp+0)%float /\
  (1000 / int_to_float 57600 * 10 = 0x1.638e38e38e38ep-3)%float /\
  (1000 / int_to_float 1000000 * 10 = 0x1.47ae147ae147bp-7)%float.
Proof. repeat split; vm_compute; reflexivity. Qed.

Example example_port_is_closed :
  PortHandler.is_open (base example_port) = false.
Proof. reflexivity. Qed.

Example example_port_opens :
  setupPort bench_channel 0 (example_port, quiet)
    = (Ret true, (fst example_port_open, snd example_port_open)).
Proof. vm_compute. reflexivity. Qed.

Lemma tx_time_per_byte_formula_witness :
  0 < 57600 /\
  PortHandler.tx_time_per_byte (base (fst example_port_open))
    = (1000 / int_to_float 57600 * 10)%float.
Proof.
  split; [lia |].
  apply (tx_time_per_byte_formula bench_channel 57600 0 example_port
           (fst example_port_open) quiet (snd example_port_open));
    [lia | reflexivity | vm_compute; reflexivity].
Defined.

Lemma closed_transport_rejects_io_witness :
  PortHandler.is_open (base example_port) = false /\
  readPort bench_channel 3 4 (example_port, quiet)
    = (Raise PortNotOpen, (example_port, quiet)).
Proof.
  split; [reflexivity |].
  apply (closed_transport_rejects_io bench_channel 3 example_port quiet).
  reflexivity.
Defined.


Lemma setupPort_reopens_witness :
  PortHandler.is_open (base (fst example_port_open)) = true /\
  io (snd (snd (setupPort bench_channel 0 example_port_open)))
    = (io (snd example_port_open)
       ++ [close_call; Serial_call (settings_8N1 (base (fst example_port_open)));
           reset_input_buffer_call])%list.
Proof.
  split; [vm_compute; reflexivity |].
  apply (setupPort_reopens bench_channel 0 (fst example_port_open)
           (fst (snd (setupPort bench_channel 0 example_port_open)))
           (snd example_port_open)
           (snd (snd (setupPort bench_channel 0 example_port_open)))
           (Ret true));
    vm_compute; reflexivity.
Defined.

Lemma writePort_forwards_whole_packet_witness :
  CAN_MAX_DATA_SIZE < Z.of_nat (List.length long_packet_bytes) /\
  denotes (PyList long_packet) long_packet_bytes /\
  writePort bench_channel (PyList long_packet) example_port_open
    = (Ret 14,
       (fst example_port_open,
        {| stdout := [];
           io := (io (snd example_port_open) ++ [write_call long_packet_bytes])%list |})).
Proof.
  split; [reflexivity |]. split; [reflexivity |].
  apply (writePort_forwards_whole_packet bench_channel (PyList long_packet)
           long_packet_bytes (fst example_port_open) (snd example_port_open));
    reflexivity.
Defined.

Lemma diagnostic_trace_witness :
  debug (set_debug true example_port) = true /\
  denotes (PyList [1; 2; 255]) [x01; x02; xff]%byte /\
  stdout (snd (snd (writePort bench_channel (PyList [1; 2; 255])
                      (set_debug true example_port, quiet))))
    = ["[DEBUG] Writing packet: 01 02 FF"].
Proof.
  split; [reflexivity |]. split; [reflexivity |].
  apply (diagnostic_trace bench_channel 3 (PyList [1; 2; 255]) [x01; x02; xff]%byte 0
           (set_debug true example_port) quiet);
    reflexivity.
Defined.

Lemma setupPort_fixed_framing_witness :
  exists cfg,
    PortHandler.ser (base (fst example_port_open)) = Some cfg /\
    serial.bytesize cfg = serial.EIGHTBITS /\
    serial.parity cfg = serial.PARITY_NONE /\
    serial.stopbits cfg = serial.STOPBITS_ONE /\
    serial.timeout cfg = Some 0 /\
    serial.port cfg = "/dev/ttyUSB0" /\
    serial.baudrate cfg = 57600 /\
    io (snd example_port_open) = [Serial_call cfg; reset_input_buffer_call].
Proof.
  apply (setupPort_fixed_framing bench_channel 0 example_port
           (fst example_port_open) quiet (snd example_port_open)).
  vm_compute; reflexivity.
Defined.

(** ** Further properties of the methods *)

Section FurtherProperties.

Variable dev : Medium.

Lemma truediv_raises (x : float) (n : Z) (e : exn) :
  truediv x n = Raise e -> e = OverflowError \/ e = ZeroDivisionError.
Proof.
  unfold truediv.
  destruct (is_infinity (int_to_float n)).
  - intro H; inversion H; auto.
  - destruct (n =? 0); intro H; inversion H; auto.
Qed.


(** X1. [setupPort] never raises [serial.SerialException]: whatever the
    state of the transport and whatever the channel does, an exception of
    that class raised while the port is set up is turned into a result. *)
Theorem setupPort_never_raises_SerialException (cflag_baud : Z)
    (self : PortHandlerCAN) (w : World) (msg : string) :
  fst (setupPort dev cflag_baud (self, w)) <> Raise (SerialException msg).
Proof.
  destruct self as [[o b t p s] ci ex cb rb dbg], w as [out log].
  run_methods.
  destruct o; simpl;
    (destruct (claim dev _ _) as [e|]; simpl;
     [ destruct e; simpl; discriminate | ]);
    (destruct (flush dev _) as [e|]; simpl;
     [ destruct e; simpl; discriminate | ]);
    (destruct (truediv 1000 b) as [q|e] eqn:Hq; simpl;
     [ | apply truediv_raises in Hq; destruct Hq; subst e; simpl; discriminate ]);
    destruct dbg; simpl; discriminate.
Qed.

Lemma truediv_by_zero (x : float) : truediv x 0 = Raise ZeroDivisionError.
Proof. reflexivity. Qed.

(** X2. With a serial baud rate of zero [setupPort] raises
    [ZeroDivisionError] after it has claimed the channel and reset its
    input buffer: the exception leaves the transport marked open on the
    new handle, with the old per-byte time, and nothing is printed. *)
Theorem setupPort_zero_baudrate (cflag_baud : Z) (self : PortHandlerCAN) (w : World) :
  PortHandler.baudrate (base self) = 0 ->
  claim dev (settings_8N1 (base self)) (io_before_claim self w) = None ->
  flush dev (io_before_claim self w ++ [Serial_call (settings_8N1 (base self))])%list
    = None ->
  exists self' w',
    setupPort dev cflag_baud (self, w) = (Raise ZeroDivisionError, (self', w')) /\
    PortHandler.is_open (base self') = true /\
    PortHandler.ser (base self') = Some (settings_8N1 (base self)) /\
    PortHandler.tx_time_per_byte (base self')
      = PortHandler.tx_time_per_byte (base self) /\
    stdout w' = stdout w /\
    io w' = (io_before_claim self w
             ++ [Serial_call (settings_8N1 (base self)); reset_input_buffer_call])%list.
Proof.
  unfold io_before_claim, settings_8N1.
  destruct self as [[o b t p s] ci ex cb rb dbg], w as [out log]; simpl.
  intros Hb Hclaim Hflush. subst b. run_methods.
  destruct o; simpl; rewrite ?app_nil_r in *;
    rewrite Hclaim; simpl; rewrite Hflush; simpl;
    rewrite ?truediv_by_zero; simpl;
    eexists; eexists; (split; [reflexivity |]); simpl;
    repeat rewrite <- app_assoc; repeat split; reflexivity.
Qed.

(** X3. When the channel is claimed but resetting its input buffer raises
    [SerialException], [setupPort] prints the message and returns
    [False] with the transport left marked open on the new handle: a
    result of [False] does not mean that the transport is closed. *)
Theorem setupPort_reset_failure (cflag_baud : Z) (self : PortHandlerCAN)
    (w : World) (msg : string) :
  claim dev (settings_8N1 (base self)) (io_before_claim self w) = None ->
  flush dev (io_before_claim self w ++ [Serial_call (settings_8N1 (base self))])%list
    = Some (SerialException msg) ->
  exists self' w',
    setupPort dev cflag_baud (self, w) = (Ret false, (self', w')) /\
    PortHandler.is_open (base self') = true /\
    PortHandler.ser (base self') = Some (settings_8N1 (base self)) /\
    PortHandler.tx_time_per_byte (base self')
      = PortHandler.tx_time_per_byte (base self) /\
    stdout w' = (stdout w ++ [("Error opening port: " ++ msg)%string])%list.
Proof.
  unfold io_before_claim, settings_8N1.
  destruct self as [[o b t p s] ci ex cb rb dbg], w as [out log]; simpl.
  intros Hclaim Hflush. run_methods.
  destruct o; simpl; rewrite ?app_nil_r in *;
    rewrite Hclaim; simpl; rewrite Hflush; simpl;
    eexists; eexists; (split; [reflexivity |]); simpl;
    repeat split; reflexivity.
Qed.

(** X4. An exception of another class than [SerialException] raised by
    [serial.Serial(...)] is not caught: [setupPort] raises it, prints
    nothing and leaves the transport closed. *)
Theorem setupPort_other_exception_propagates (cflag_baud : Z)
    (self : PortHandlerCAN) (w : World) (e : exn) :
  (forall msg, e <> SerialException msg) ->
  claim dev (settings_8N1 (base self)) (io_before_claim self w) = Some e ->
  exists self' w',
    setupPort dev cflag_baud (self, w) = (Raise e, (self', w')) /\
    PortHandler.is_open (base self') = false /\
    stdout w' = stdout w.
Proof.
  unfold io_before_claim, settings_8N1.
  destruct self as [[o b t p s] ci ex cb rb dbg], w as [out log]; simpl.
  intros He Hclaim. run_methods.
  destruct o; simpl; rewrite ?app_nil_r in *;
    rewrite Hclaim; simpl;
    (destruct e; [exfalso; eapply He; reflexivity | | | |]);
    simpl; eexists; eexists; repeat split; reflexivity.
Qed.


(** X6. [setupPort] returns [False] exactly when claiming the channel, or
    resetting the input buffer of the claimed channel, raises
    [SerialException]. *)
Theorem setupPort_fails_iff (cflag_baud : Z) (self : PortHandlerCAN) (w : World) :
  fst (setupPort dev cflag_baud (self, w)) = Ret false <->
  (exists msg,
      claim dev (settings_8N1 (base self)) (io_before_claim self w)
        = Some (SerialException msg)) \/
  (claim dev (settings_8N1 (base self)) (io_before_claim self w) = None /\
   exists msg,
     flush dev (io_before_claim self w ++ [Serial_call (settings_8N1 (base self))])%list
       = Some (SerialException msg)).
Proof.
  unfold io_before_claim, settings_8N1.
  destruct self as [[o b t p s] ci ex cb rb dbg], w as [out log]; simpl.
  run_methods.
  destruct o; simpl; rewrite ?app_nil_r;
    (destruct (claim dev _ _) as [e|]; simpl;
     [ destruct e; simpl;
       (split;
        [ first [ intros _; left; eexists; reflexivity | discriminate ]
        | first [ reflexivity
                | intros [[m H] | [H _]]; discriminate ] ]) | ]);
    (destruct (flush dev _) as [e|]; simpl;
     [ destruct e; simpl;
       (split;
        [ first [ intros _; right; split; [reflexivity | eexists; reflexivity]
                | discriminate ]
        | first [ reflexivity
                | intros [[m H] | [_ [m H]]]; discriminate ] ]) | ]);
    (destruct (truediv 1000 b) as [q|e] eqn:Hq; simpl;
     [ | apply truediv_raises in Hq; destruct Hq; subst e; simpl;
         (split; [discriminate | intros [[m H] | [_ [m H]]]; discriminate]) ]);
    destruct dbg; simpl;
    (split; [discriminate | intros [[m H] | [_ [m H]]]; discriminate]).
Qed.

Lemma byte_of_int_in_range (x : Z) :
  in_byte_range x -> exists b, byte_of_int x = Some b /\ int_of_byte b = x.
Proof.
  intros [Hlo Hhi]. unfold byte_of_int, int_of_byte.
  replace ((0 <=? x) && (x <? 256))%bool with true
    by (symmetry; apply andb_true_iff; split; [apply Z.leb_le | apply Z.ltb_lt]; lia).
  destruct (Byte.of_N (Z.to_N x)) as [b|] eqn:Hb.
  - exists b. split; [reflexivity |].
    apply Byte.to_of_N in Hb. rewrite Hb. lia.
  - apply Byte.of_N_None_iff in Hb. lia.
Qed.

Lemma byte_of_int_out_of_range (x : Z) :
  ~ in_byte_range x -> byte_of_int x = None.
Proof.
  intro Hx. unfold byte_of_int.
  destruct ((0 <=? x) && (x <? 256))%bool eqn:Hc; [| reflexivity].
  apply andb_true_iff in Hc. destruct Hc as [Hlo Hhi].
  apply Z.leb_le in Hlo. apply Z.ltb_lt in Hhi.
  exfalso. apply Hx. split; assumption.
Qed.

Lemma in_byte_range_dec (x : Z) : {in_byte_range x} + {~ in_byte_range x}.
Proof.
  unfold in_byte_range.
  destruct (Z_le_dec 0 x); [| right; lia].
  destruct (Z_lt_dec x 256); [left | right]; lia.
Qed.

Lemma bytearray_rejects (xs : list Z) :
  Exists (fun x => ~ in_byte_range x) xs ->
  bytearray xs = Raise (ValueError "byte must be in range(0, 256)").
Proof.
  induction xs as [|x xs IH]; intro H.
  - inversion H.
  - simpl. destruct (in_byte_range_dec x) as [Hx|Hx].
    + destruct (byte_of_int_in_range x Hx) as (b & Hb & _). rewrite Hb.
      rewrite IH; [reflexivity |].
      inversion H; subst; [contradiction | assumption].
    + rewrite (byte_of_int_out_of_range x Hx). reflexivity.
Qed.

Lemma bytearray_accepts (xs : list Z) :
  Forall in_byte_range xs ->
  exists data, bytearray xs = Ret data /\ map int_of_byte data = xs.
Proof.
  induction 1 as [|x xs Hx _ IH].
  - exists []. split; reflexivity.
  - destruct IH as (data & Hdata & Hmap).
    destruct (byte_of_int_in_range x Hx) as (b & Hb & Hval).
    exists (b :: data). simpl. rewrite Hb, Hdata, Hval, Hmap.
    split; reflexivity.
Qed.

(** X7. [writePort] on a list that holds an int outside [range(0, 256)]
    raises [ValueError] before anything else happens: no trace line, no
    call on the channel and no change of the object, whether the
    transport is open and whether diagnostics are on. *)
Theorem writePort_rejects_out_of_range (xs : list Z) (self : PortHandlerCAN)
    (w : World) :
  Exists (fun x => ~ in_byte_range x) xs ->
  writePort dev (PyList xs) (self, w)
    = (Raise (ValueError "byte must be in range(0, 256)"), (self, w)).
Proof.
  intro H. run_methods. rewrite (bytearray_rejects xs H). reflexivity.
Qed.

(** X8. A list of ints that are all in [range(0, 256)] is always accepted
    and is interchangeable with the byte string of the same values:
    [writePort] behaves on the one exactly as on the other. *)
Theorem writePort_list_as_bytes (xs : list Z) (self : PortHandlerCAN) (w : World) :
  Forall in_byte_range xs ->
  exists data,
    map int_of_byte data = xs /\
    writePort dev (PyList xs) (self, w) = writePort dev (PyBytes data) (self, w).
Proof.
  intro H. destruct (bytearray_accepts xs H) as (data & Hdata & Hmap).
  exists data. split; [exact Hmap |].
  run_methods. rewrite Hdata. reflexivity.
Qed.

Lemma spaced_hex_length (data : list byte) :
  String.length (spaced_hex data) = (3 * List.length data - 1)%nat.
Proof.
  induction data as [|b [|b' rest] IH].
  - reflexivity.
  - reflexivity.
  - change (spaced_hex (b :: b' :: rest))
      with (two_digit_hex b ++ " " ++ spaced_hex (b' :: rest))%string.
    unfold two_digit_hex at 1. cbn [String.append String.length].
    rewrite IH. cbn [List.length]. lia.
Qed.

Lemma parse_two_digit_hex (b : byte) :
  exists hi lo,
    two_digit_hex b = String hi (String lo "") /\ parse_two_digits hi lo = Some b.
Proof. destruct b; eexists; eexists; split; reflexivity. Qed.

Lemma parse_spaced_hex (data : list byte) :
  parse_hex_dump (spaced_hex data) = Some data.
Proof.
  induction data as [|b [|b' rest] IH].
  - reflexivity.
  - destruct (parse_two_digit_hex b) as (hi & lo & Hhex & Hparse).
    change (spaced_hex [b]) with (two_digit_hex b).
    rewrite Hhex. cbn [parse_hex_dump]. rewrite Hparse. reflexivity.
  - destruct (parse_two_digit_hex b) as (hi & lo & Hhex & Hparse).
    change (spaced_hex (b :: b' :: rest))
      with (two_digit_hex b ++ " " ++ spaced_hex (b' :: rest))%string.
    rewrite Hhex. cbn [String.append].
    cbn [parse_hex_dump]. rewrite Hparse.
    change (Ascii.eqb " " " ") with true. cbn iota.
    rewrite IH. reflexivity.
Qed.

(** X9. The hexadecimal dump of a trace has three characters per byte
    less one: two digits for each byte and one space between
    neighbours (and is empty for no bytes). *)
Theorem hex_dump_length (data : list byte) :
  String.length (hex_dump data) = (3 * List.length data - 1)%nat.
Proof.
  rewrite hex_dump_spaced. apply spaced_hex_length.
Qed.

(** X10. The hexadecimal dump of a trace loses nothing: it can be read
    back into the bytes it was made from, so two different byte
    sequences never give the same dump. *)
Theorem hex_dump_injective (data data' : list byte) :
  parse_hex_dump (hex_dump data) = Some data /\
  (hex_dump data = hex_dump data' -> data = data').
Proof.
  split.
  - rewrite hex_dump_spaced. apply parse_spaced_hex.
  - intro H. rewrite !hex_dump_spaced in H.
    apply (f_equal parse_hex_dump) in H.
    rewrite !parse_spaced_hex in H. inversion H. reflexivity.
Qed.

Lemma invoke_keeps_configuration (version_major : Z) (m : method)
    (st : PortHandlerCAN * World) :
  configuration (fst (invoke dev version_major m st)) = configuration (fst st).
Proof.
  destruct st as [[[o b t p s] ci ex cb rb dbg] [out log]].
  destruct m as [pk|length|c|enable| |];
    [ | | | | unfold invoke, forget;
            rewrite printCANConfInstructions_keeps_self; reflexivity | ];
    run_methods.
  - destruct (match pk with PyBytes data => Ret data | PyList xs => bytearray xs end);
      simpl; [| reflexivity].
    destruct dbg, o; reflexivity.
  - destruct o; simpl; [| reflexivity].
    destruct dbg; simpl; [| reflexivity].
    destruct (recv dev length log); simpl; [reflexivity |].
    destruct (3 <=? version_major); reflexivity.
  - destruct o; simpl;
      (destruct (claim dev _ _) as [e|]; simpl;
       [ destruct e; reflexivity | ]);
      (destruct (flush dev _) as [e|]; simpl;
       [ destruct e; reflexivity | ]);
      (destruct (truediv 1000 b) as [q|e]; simpl;
       [ | destruct e; reflexivity ]);
      destruct dbg; reflexivity.
  - reflexivity.
  - destruct o; reflexivity.
Qed.

(** X11. No method changes the configuration of a port handler: after any
    sequence of [writePort], [readPort], [setupPort], [setDebug],
    [printCANConfInstructions] and [closePort] calls, returning or
    raising, the port name, the serial baud rate, the CAN identifier, the
    extended-frame flag and the CAN baud rate are those it started with. *)
Theorem configuration_is_kept (version_major : Z) (ms : list method)
    (st : PortHandlerCAN * World) :
  configuration (fst (invoke_all dev version_major ms st)) = configuration (fst st).
Proof.
  revert st. induction ms as [|m ms IH]; intro st.
  - reflexivity.
  - unfold invoke_all in *. simpl. rewrite IH.
    apply invoke_keeps_configuration.
Qed.

(** X12. With diagnostics off the transport is silent: [writePort] and
    [readPort] print nothing, and [setupPort] prints nothing unless it
    returns [False]. *)
Theorem silent_without_debug (version_major : Z) (self : PortHandlerCAN) (w : World) :
  debug self = false ->
  (forall p, stdout (snd (snd (writePort dev p (self, w)))) = stdout w) /\
  (forall length,
      stdout (snd (snd (readPort dev version_major length (self, w)))) = stdout w) /\
  (forall cflag_baud,
      fst (setupPort dev cflag_baud (self, w)) <> Ret false ->
      stdout (snd (snd (setupPort dev cflag_baud (self, w)))) = stdout w).
Proof.
  destruct self as [[o b t p s] ci ex cb rb dbg], w as [out log]; simpl.
  intro Hdbg. subst dbg. split; [| split].
  - intro pk. run_methods.
    destruct (match pk with PyBytes data => Ret data | PyList xs => bytearray xs end);
      simpl; [| reflexivity].
    destruct o; reflexivity.
  - intro length. run_methods. destruct o; reflexivity.
  - intro c. run_methods.
    destruct o; simpl;
      (destruct (claim dev _ _) as [e|]; simpl;
       [ destruct e; simpl; intro H; first [reflexivity | exfalso; apply H; reflexivity] | ]);
      (destruct (flush dev _) as [e|]; simpl;
       [ destruct e; simpl; intro H; first [reflexivity | exfalso; apply H; reflexivity] | ]);
      (destruct (truediv 1000 b) as [q|e] eqn:Hq; simpl;
       [ | apply truediv_raises in Hq; destruct Hq; subst e; intros _; reflexivity ]);
      intros _; reflexivity.
Qed.

(** X13. Setting a port up twice is the same for the object as setting
    it up once: when [setupPort] returns [True] and, called again at
    once, returns [True] again, the second call leaves the object exactly
    as the first did, and the channel has seen a close, a new claim and
    a reset in between. *)
Theorem setupPort_again (c1 c2 : Z) (self self1 self2 : PortHandlerCAN)
    (w w1 w2 : World) :
  setupPort dev c1 (self, w) = (Ret true, (self1, w1)) ->
  setupPort dev c2 (self1, w1) = (Ret true, (self2, w2)) ->
  self2 = self1 /\
  io w2 = (io w1 ++ [close_call; Serial_call (settings_8N1 (base self));
                     reset_input_buffer_call])%list.
Proof.
  intros H1 H2.
  apply setupPort_returns_true in H1. apply setupPort_returns_true in H2.
  destruct H1 as (_ & _ & q1 & Hq1 & Hself1 & _ & _).
  destruct H2 as (_ & _ & q2 & Hq2 & Hself2 & Hio2 & _).
  apply truediv_value in Hq1. apply truediv_value in Hq2.
  subst self1. simpl in *. subst q1 q2 self2.
  split.
  - destruct self; reflexivity.
  - rewrite Hio2. unfold io_before_claim. simpl.
    rewrite <- app_assoc. reflexivity.
Qed.

(** X14. With diagnostics on, a [setupPort] that returns [True] reports
    the configuration it has used: a heading, the serial port, the serial
    baud rate in decimal, the CAN identifier in uppercase hexadecimal
    marked (Extended) or (Standard) after the flag, the CAN baud rate,
    and a reminder, in that order and after everything printed before. *)
Theorem setupPort_reports_configuration (cflag_baud : Z)
    (self self' : PortHandlerCAN) (w w' : World) :
  debug self = true ->
  setupPort dev cflag_baud (self, w) = (Ret true, (self', w')) ->
  stdout w' =
    (stdout w ++
     [ "[DEBUG] Port Configuration:";
       "  - Serial Port: " ++ PortHandler.port_name (base self);
       "  - Serial Baudrate: " ++ str_int (PortHandler.baudrate (base self));
       "  - CAN ID: 0x" ++ format_X (can_id self)
         ++ (if extended_id self then " (Extended)" else " (Standard)");
       "  - CAN Baudrate: " ++ str_int (can_baudrate self);
       "Note: Make sure the WS-TTL-CAN converter is configured with these settings"
     ]%string)%list.
Proof.
  intros Hdbg Hrun.
  apply setupPort_returns_true in Hrun.
  destruct Hrun as (_ & _ & q & _ & _ & _ & Hout).
  rewrite Hdbg in Hout. exact Hout.
Qed.

(** X15. Reading and writing never change the port handler: whatever the
    packet or the length, whether the transport is open and whether the
    call returns or raises, the object after [writePort] or [readPort]
    is the object before. *)
Theorem io_leaves_object (version_major : Z) (self : PortHandlerCAN) (w : World) :
  (forall p, fst (snd (writePort dev p (self, w))) = self) /\
  (forall length, fst (snd (readPort dev version_major length (self, w))) = self).
Proof.
  destruct self as [[o b t p s] ci ex cb rb dbg], w as [out log].
  split.
  - intro pk. run_methods.
    destruct (match pk with PyBytes data => Ret data | PyList xs => bytearray xs end);
      simpl; [| reflexivity].
    destruct dbg, o; reflexivity.
  - intro length. run_methods.
    destruct o; simpl; [| reflexivity].
    destruct dbg; simpl; [| reflexivity].
    destruct (recv dev length log); simpl; [reflexivity |].
    destruct (3 <=? version_major); reflexivity.
Qed.

End FurtherProperties.

(** ** The further properties at concrete inputs *)

Lemma setupPort_never_raises_SerialException_witness :
  fst (setupPort stuck_channel 0 (example_port, quiet))
    <> Raise (SerialException "could not reset input buffer").
Proof.
  apply (setupPort_never_raises_SerialException stuck_channel 0 example_port quiet).
Defined.


Lemma setupPort_fails_iff_witness :
  fst (setupPort busy_channel 0 (example_port, quiet)) = Ret false.
Proof.
  apply (setupPort_fails_iff busy_channel 0 example_port quiet).
  left. exists "could not open port". reflexivity.
Defined.

Lemma setupPort_zero_baudrate_witness :
  PortHandler.baudrate (base zero_baud_port) = 0 /\
  exists self' w',
    setupPort bench_channel 0 (zero_baud_port, quiet)
      = (Raise ZeroDivisionError, (self', w')) /\
    PortHandler.is_open (base self') = true /\
    PortHandler.ser (base self') = Some (settings_8N1 (base zero_baud_port)) /\
    PortHandler.tx_time_per_byte (base self') = 0%float /\
    stdout w' = [] /\
    io w' = [Serial_call (settings_8N1 (base zero_baud_port)); reset_input_buffer_call].
Proof.
  split; [reflexivity |].
  apply (setupPort_zero_baudrate bench_channel 0 zero_baud_port quiet);
    reflexivity.
Defined.

Lemma setupPort_reset_failure_witness :
  exists self' w',
    setupPort stuck_channel 0 (example_port, quiet) = (Ret false, (self', w')) /\
    PortHandler.is_open (base self') = true /\
    PortHandler.ser (base self') = Some (settings_8N1 (base example_port)) /\
    PortHandler.tx_time_per_byte (base self') = 0%float /\
    stdout w' = ["Error opening port: could not reset input buffer"].
Proof.
  apply (setupPort_reset_failure stuck_channel 0 example_port quiet
           "could not reset input buffer");
    reflexivity.
Defined.

Lemma setupPort_other_exception_propagates_witness :
  exists self' w',
    setupPort strict_channel 0 (example_port, quiet)
      = (Raise (ValueError "Not a valid baudrate"), (self', w')) /\
    PortHandler.is_open (base self') = false /\
    stdout w' = [].
Proof.
  apply (setupPort_other_exception_propagates strict_channel 0 example_port quiet
           (ValueError "Not a valid baudrate")).
  - intros msg H. discriminate H.
  - reflexivity.
Defined.

Lemma writePort_rejects_out_of_range_witness :
  writePort bench_channel (PyList [1; 256]) (set_debug true (fst example_port_open),
                                             snd example_port_open)
    = (Raise (ValueError "byte must be in range(0, 256)"),
       (set_debug true (fst example_port_open), snd example_port_open)).
Proof.
  apply (writePort_rejects_out_of_range bench_channel [1; 256]).
  apply Exists_cons_tl, Exists_cons_hd.
  unfold in_byte_range. lia.
Defined.

Lemma writePort_list_as_bytes_witness :
  exists data,
    map int_of_byte data = long_packet /\
    writePort bench_channel (PyList long_packet) example_port_open
      = writePort bench_channel (PyBytes data) example_port_open.
Proof.
  apply (writePort_list_as_bytes bench_channel long_packet
           (fst example_port_open) (snd example_port_open)).
  unfold long_packet, in_byte_range. repeat constructor; lia.
Defined.

Lemma silent_without_debug_witness :
  debug (fst example_port_open) = false /\
  stdout (snd (snd (readPort bench_channel 3 4 example_port_open))) = [].
Proof.
  split; [reflexivity |].
  apply (silent_without_debug bench_channel 3 (fst example_port_open)
           (snd example_port_open)).
  reflexivity.
Defined.

Lemma setupPort_again_witness :
  fst (snd (setupPort bench_channel 1 example_port_open)) = fst example_port_open.
Proof.
  apply (setupPort_again bench_channel 0 1 example_port
           (fst example_port_open)
           (fst (snd (setupPort bench_channel 1 example_port_open)))
           quiet (snd example_port_open)
           (snd (snd (setupPort bench_channel 1 example_port_open))));
    vm_compute; reflexivity.
Defined.

Lemma setupPort_reports_configuration_witness :
  debug (set_debug true example_port) = true /\
  stdout (snd (snd (setupPort bench_channel 0 (set_debug true example_port, quiet))))
    = [ "[DEBUG] Port Configuration:";
        "  - Serial Port: /dev/ttyUSB0";
        "  - Serial Baudrate: 57600";
        "  - CAN ID: 0x60 (Standard)";
        "  - CAN Baudrate: 1000000";
        "Note: Make sure the WS-TTL-CAN converter is configured with these settings" ].
Proof.
  split; [reflexivity |].
  apply (setupPort_reports_configuration bench_channel 0
           (set_debug true example_port)
           (fst (snd (setupPort bench_channel 0 (set_debug true example_port, quiet))))
           quiet
           (snd (snd (setupPort bench_channel 0 (set_debug true example_port, quiet)))));
    [reflexivity | vm_compute; reflexivity].
Defined.

Lemma hex_dump_injective_witness :
  hex_dump [x01; x02; xff]%byte = "01 02 FF" /\
  parse_hex_dump "01 02 FF" = Some [x01; x02; xff]%byte.
Proof.
  split; [reflexivity |].
  apply (hex_dump_injective [x01; x02; xff]%byte [x01; x02; xff]%byte).
Defined.
